(** * Remote MCP client example: the demo runner and its collaborators

    A shallow embedding of [09-mcp/client-remote-mcp.py].  The script owns no
    algorithm: it sequences constructor calls of three external libraries
    inside one [async with] statement, awaits one query and prints the
    answer.  The collaborators (tool connection, credential provider, chat
    backend, agent) are external code, so they enter the model as a record of
    behaviours, a [World]; every call the script makes is logged in a trace,
    and what the script itself contributes (the order of the calls, the
    arguments, the unwinding through [__aexit__]) is what the theorems are
    about. *)

From Stdlib Require Import String List Bool Arith Lia Sorted.
Import ListNotations.
Local Open Scope string_scope.
Local Open Scope list_scope.

(** ** Values *)

(** A raised Python exception: its class and its message. *)
Record PyExc : Type := Exception { exc_type : string; exc_msg : string }.

(** A call either returns a value or raises. *)
Inductive Outcome (A : Type) : Type :=
| Returned (a : A)
| Raised (e : PyExc).
Arguments Returned {A} a.
Arguments Raised {A} e.

(** The object built by [MCPStreamableHTTPTool(name=..., url=...)]. *)
Record MCPStreamableHTTPTool : Type :=
  { tool_name : string; tool_url : string }.

Section Model.

(** Objects of the external libraries stay opaque: a credential handle, the
    value a tool's [__aenter__] hands back, the value an agent's
    [__aenter__] hands back, and a query response with its [str()]. *)
Context {Cred Session Agent Response : Type}.
Variable str : Response -> string.

(** The object built by [AzureOpenAIChatClient(credential=...)]. *)
Record AzureOpenAIChatClient : Type := { credential : Cred }.

(** The object built by [ChatAgent(chat_client=..., name=..., instructions=...)]. *)
Record ChatAgent : Type :=
  { chat_client : AzureOpenAIChatClient;
    agent_name : string;
    instructions : string }.

(** ** Collaborator behaviour

    One field per external call of the script.  A constructor either builds
    its object or raises ([Some e]); [__aenter__] returns the value bound by
    [as]; [__aexit__] receives the exception in flight ([None] on normal
    exit) and either returns a truth value (true suppresses the exception)
    or raises.  [print_fails] is what [print(result)] meets: the response's
    [__str__] raising, or standard output refusing the text (an encoding it
    cannot write, a closed pipe). *)
Record World : Type :=
  { tool_init    : MCPStreamableHTTPTool -> option PyExc;
    tool_aenter  : MCPStreamableHTTPTool -> Outcome Session;
    tool_aexit   : MCPStreamableHTTPTool -> option PyExc -> Outcome bool;
    cli_credential : Outcome Cred;
    client_init  : AzureOpenAIChatClient -> option PyExc;
    agent_init   : ChatAgent -> option PyExc;
    agent_aenter : ChatAgent -> Outcome Agent;
    agent_aexit  : ChatAgent -> option PyExc -> Outcome bool;
    agent_run    : Agent -> string -> Session -> Outcome Response;
    print_fails  : Response -> option PyExc }.

(** ** Observable events

    One event per call of a collaborator, and [Print text] for a line that
    reached standard output. *)
Inductive Event : Type :=
| LoadDotenv
| ToolInit (t : MCPStreamableHTTPTool)
| ToolEnter (t : MCPStreamableHTTPTool)
| ToolExit (t : MCPStreamableHTTPTool) (exc : option PyExc)
| GetCredential
| ClientInit (c : AzureOpenAIChatClient)
| AgentInit (a : ChatAgent)
| AgentEnter (a : ChatAgent)
| AgentExit (a : ChatAgent) (exc : option PyExc)
| Run (agent : Agent) (query : string) (tools : Session)
| Print (text : string).

(** ** The effect monad: a call log and an outcome *)
Definition M (A : Type) : Type := list Event * Outcome A.

Definition ret {A} (a : A) : M A := ([], Returned a).

Definition bind {A B} (m : M A) (k : A -> M B) : M B :=
  match m with
  | (tr, Returned a) => let (tr', o) := k a in (tr ++ tr', o)
  | (tr, Raised e) => (tr, Raised e)
  end.

(** A logged call of a collaborator. *)
Definition call {A} (ev : Event) (o : Outcome A) : M A := ([ev], o).

(** A logged constructor call: the object is built unless the library raises. *)
Definition construct {A} (ev : Event) (obj : A) (fails : option PyExc) : M A :=
  call ev (match fails with None => Returned obj | Some e => Raised e end).

(** [async with mgr as v: body] for a manager already evaluated.
    [__aenter__] runs first; once it has returned, [__aexit__] runs on every
    path out of the body, with the exception in flight if there is one, and
    decides by its truth value whether that exception goes on. *)
Definition async_with {A} (aenter : M A) (aexit : option PyExc -> M bool)
    (body : A -> M unit) : M unit :=
  match aenter with
  | (tr, Raised e) => (tr, Raised e)
  | (tr, Returned v) =>
      match body v with
      | (trb, Returned _) =>
          match aexit None with
          | (trx, Returned _) => (tr ++ trb ++ trx, Returned tt)
          | (trx, Raised e') => (tr ++ trb ++ trx, Raised e')
          end
      | (trb, Raised e) =>
          match aexit (Some e) with
          | (trx, Returned true) => (tr ++ trb ++ trx, Returned tt)
          | (trx, Returned false) => (tr ++ trb ++ trx, Raised e)
          | (trx, Raised e') => (tr ++ trb ++ trx, Raised e')
          end
      end
  end.

(** [print(result)]: one line on standard output, the response's [str()];
    when [print] raises, nothing has been written. *)
Definition print (w : World) (r : Response) : M unit :=
  match print_fails w r with
  | None => call (Print (str r)) (Returned tt)
  | Some e => ([], Raised e)
  end.

(** ** The script *)

Definition MCP_NAME : string := "Microsoft Learn MCP".
Definition MCP_URL : string := "https://learn.microsoft.com/api/mcp".
Definition AGENT_NAME : string := "MSLearnAgent".
Definition AGENT_INSTRUCTIONS : string :=
  "You help with Microsoft documentation questions.".
Definition QUERY : string := "What is the Azure Container Apps service".

Definition mcp_tool : MCPStreamableHTTPTool :=
  {| tool_name := MCP_NAME; tool_url := MCP_URL |}.

(** The second item of the [async with]: its context expression
    [ChatAgent(chat_client=AzureOpenAIChatClient(credential=AzureCliCredential()), ...)],
    evaluated innermost call first. *)
Definition make_agent (w : World) : M ChatAgent :=
  bind (call GetCredential (cli_credential w)) (fun cred =>
  let client := {| credential := cred |} in
  bind (construct (ClientInit client) client (client_init w client)) (fun client =>
  let a := {| chat_client := client;
              agent_name := AGENT_NAME;
              instructions := AGENT_INSTRUCTIONS |} in
  construct (AgentInit a) a (agent_init w a))).

(** The body of the [async with]: the query and the print. *)
Definition query_and_print (w : World) (mcp_server : Session) (agent : Agent)
    : M unit :=
  bind (call (Run agent QUERY mcp_server) (agent_run w agent QUERY mcp_server))
       (fun result => print w result).

(** [async def remote_mcp_example()].  The two-item [async with] is the
    nesting of two one-item statements: the second item is evaluated inside
    the scope of the first. *)
Definition remote_mcp_example (w : World) : M unit :=
  bind (construct (ToolInit mcp_tool) mcp_tool (tool_init w mcp_tool)) (fun tool =>
  async_with
    (call (ToolEnter tool) (tool_aenter w tool))
    (fun exc => call (ToolExit tool exc) (tool_aexit w tool exc))
    (fun mcp_server =>
       bind (make_agent w) (fun agent_cm =>
       async_with
         (call (AgentEnter agent_cm) (agent_aenter w agent_cm))
         (fun exc => call (AgentExit agent_cm exc) (agent_aexit w agent_cm exc))
         (fun agent => query_and_print w mcp_server agent)))).

(** ** The module

    Importing or running the file executes its top level.  The model starts
    where the [import] statements of lines 15 to 20 have bound their names
    (a failed import leaves no module to speak of): [load_dotenv()], the
    [def], and under [__name__ == "__main__"] one
    [asyncio.run(remote_mcp_example())]. *)
Record Env : Type :=
  { dotenv : option PyExc;      (* [load_dotenv()] raises? *)
    dunder_name : string;       (* [__name__] *)
    loop_running : bool }.      (* an event loop already runs in this thread *)

Definition load_dotenv (env : Env) : M unit :=
  construct LoadDotenv tt (dotenv env).

Definition running_loop_error : PyExc :=
  Exception "RuntimeError"
            "asyncio.run() cannot be called from a running event loop".

(** [asyncio.run(coro)]: refuses when an event loop is already running, and
    the coroutine then never starts; otherwise runs the coroutine to its end
    and returns its result or raises its exception. *)
Definition asyncio_run (env : Env) (coro : M unit) : M unit :=
  if loop_running env then ([], Raised running_loop_error) else coro.

Definition module_body (env : Env) (w : World) : M unit :=
  bind (load_dotenv env) (fun _ =>
  if String.eqb (dunder_name env) "__main__"
  then asyncio_run env (remote_mcp_example w)
  else ret tt).

(** A process that has imported the module and then calls
    [remote_mcp_example] once per world of [ws], going on to the next call
    whatever the previous one did. *)
Fixpoint invocations (ws : list World) : list Event :=
  match ws with
  | [] => []
  | w :: ws' => fst (remote_mcp_example w) ++ invocations ws'
  end.

Definition process (env : Env) (w : World) (ws : list World) : list Event :=
  match module_body env w with
  | (tr, Returned _) => tr ++ invocations ws
  | (tr, Raised _) => tr
  end.

(** ** Reading a trace *)

Definition is_load_dotenv (e : Event) : bool :=
  match e with LoadDotenv => true | _ => false end.
Definition is_tool_init (e : Event) : bool :=
  match e with ToolInit _ => true | _ => false end.
Definition is_tool_enter (e : Event) : bool :=
  match e with ToolEnter _ => true | _ => false end.
Definition is_tool_exit (e : Event) : bool :=
  match e with ToolExit _ _ => true | _ => false end.
Definition is_get_credential (e : Event) : bool :=
  match e with GetCredential => true | _ => false end.
Definition is_agent_init (e : Event) : bool :=
  match e with AgentInit _ => true | _ => false end.
Definition is_agent_enter (e : Event) : bool :=
  match e with AgentEnter _ => true | _ => false end.
Definition is_agent_exit (e : Event) : bool :=
  match e with AgentExit _ _ => true | _ => false end.
Definition is_run (e : Event) : bool :=
  match e with Run _ _ _ => true | _ => false end.
Definition is_print (e : Event) : bool :=
  match e with Print _ => true | _ => false end.

(** How many events of a kind, and where the first one is. *)
Definition occurrences (p : Event -> bool) (tr : list Event) : nat :=
  length (filter p tr).

Fixpoint position (p : Event -> bool) (tr : list Event) : option nat :=
  match tr with
  | [] => None
  | e :: tr' =>
      if p e then Some 0
      else match position p tr' with
           | Some n => Some (S n)
           | None => None
           end
  end.

(** What was written to standard output. *)
Fixpoint stdout (tr : list Event) : list string :=
  match tr with
  | [] => []
  | Print s :: tr' => s :: stdout tr'
  | _ :: tr' => stdout tr'
  end.

Definition trace (w : World) : list Event := fst (remote_mcp_example w).
Definition result (w : World) : Outcome unit := snd (remote_mcp_example w).

(** The kind of step an event belongs to; a step tried twice shows as a
    repeated kind. *)
Definition step_kind (e : Event) : nat :=
  match e with
  | LoadDotenv => 0
  | ToolInit _ => 1
  | ToolEnter _ => 2
  | GetCredential => 3
  | ClientInit _ => 4
  | AgentInit _ => 5
  | AgentEnter _ => 6
  | Run _ _ _ => 7
  | Print _ => 8
  | AgentExit _ _ => 9
  | ToolExit _ _ => 10
  end.

(** ** Scenarios

    What a claim calls "the tool connection was opened", "both resources
    were acquired", "the success path", said of the collaborators. *)

(** The tool object was built and its [__aenter__] returned [s]. *)
Definition tool_opened (w : World) (s : Session) : Prop :=
  tool_init w mcp_tool = None /\ tool_aenter w mcp_tool = Returned s.

(** The agent the script builds from credential [c]. *)
Definition agent_for (c : Cred) : ChatAgent :=
  {| chat_client := {| credential := c |};
     agent_name := AGENT_NAME;
     instructions := AGENT_INSTRUCTIONS |}.

(** The credential [c] was issued and both constructors accepted it. *)
Definition agent_built (w : World) (c : Cred) : Prop :=
  cli_credential w = Returned c /\
  client_init w {| credential := c |} = None /\
  agent_init w (agent_for c) = None.

(** Tool connection and agent both acquired: [s] and [a] are what the two
    [__aenter__] calls returned. *)
Definition acquired (w : World) (s : Session) (c : Cred) (a : Agent) : Prop :=
  tool_opened w s /\ agent_built w c /\ agent_aenter w (agent_for c) = Returned a.

(** No collaborator call raises, and the query answers [r]. *)
Definition success_path (w : World) (s : Session) (c : Cred) (a : Agent)
    (r : Response) : Prop :=
  acquired w s c a /\
  agent_run w a QUERY s = Returned r /\
  (exists b, agent_aexit w (agent_for c) None = Returned b) /\
  (exists b, tool_aexit w mcp_tool None = Returned b).

(** A step of the run was reached and raised [e]: every step before it
    returned. *)
Inductive Failure (w : World) (e : PyExc) : Prop :=
| tool_init_fails :
    tool_init w mcp_tool = Some e -> Failure w e
| tool_open_fails :
    tool_init w mcp_tool = None ->
    tool_aenter w mcp_tool = Raised e -> Failure w e
| credential_fails s :
    tool_opened w s ->
    cli_credential w = Raised e -> Failure w e
| client_init_fails s c :
    tool_opened w s ->
    cli_credential w = Returned c ->
    client_init w {| credential := c |} = Some e -> Failure w e
| agent_init_fails s c :
    tool_opened w s ->
    cli_credential w = Returned c ->
    client_init w {| credential := c |} = None ->
    agent_init w (agent_for c) = Some e -> Failure w e
| agent_enter_fails s c :
    tool_opened w s ->
    agent_built w c ->
    agent_aenter w (agent_for c) = Raised e -> Failure w e
| query_fails s c a :
    acquired w s c a ->
    agent_run w a QUERY s = Raised e -> Failure w e
| print_raises s c a r :
    acquired w s c a ->
    agent_run w a QUERY s = Returned r ->
    print_fails w r = Some e -> Failure w e.

(** The exception the body of the [async with] ends with, which is what the
    agent's [__aexit__] is given: the query's, or else the print's. *)
Definition body_error (w : World) (s : Session) (a : Agent) : option PyExc :=
  match agent_run w a QUERY s with
  | Raised e => Some e
  | Returned r => print_fails w r
  end.

(** Every release handler the run called returned a falsy value and did not
    raise. *)
Definition exits_quiet (w : World) (tr : list Event) : Prop :=
  Forall (fun ev =>
            match ev with
            | ToolExit t exc => tool_aexit w t exc = Returned false
            | AgentExit a exc => agent_aexit w a exc = Returned false
            | _ => True
            end) tr.

(** The exception still in flight once an [__aexit__] given [exc] has
    answered [o]. *)
Definition after_exit (exc : option PyExc) (o : Outcome bool) : option PyExc :=
  match o with
  | Raised e' => Some e'
  | Returned true => None
  | Returned false => exc
  end.

(** Leaving the tool's scope after the events [pre] with [exc] in flight:
    the log and what reaches the caller. *)
Definition leave_tool (w : World) (pre : list Event) (exc : option PyExc)
    : M unit :=
  (pre ++ [ToolExit mcp_tool exc],
   match after_exit exc (tool_aexit w mcp_tool exc) with
   | None => Returned tt
   | Some e' => Raised e'
   end).

(** Leaving the agent's scope and then the tool's. *)
Definition leave_both (w : World) (c : Cred) (pre : list Event)
    (exc : option PyExc) : M unit :=
  leave_tool w (pre ++ [AgentExit (agent_for c) exc])
             (after_exit exc (agent_aexit w (agent_for c) exc)).

(** The events of a run up to the moment the agent is entered. *)
Definition setup_events (c : Cred) : list Event :=
  [ToolInit mcp_tool; ToolEnter mcp_tool; GetCredential;
   ClientInit {| credential := c |};
   AgentInit (agent_for c); AgentEnter (agent_for c)].


End Model.

Arguments World : clear implicits.
Arguments Event : clear implicits.
Arguments M : clear implicits.
Arguments AzureOpenAIChatClient : clear implicits.
Arguments ChatAgent : clear implicits.

(** ** Mock collaborators

    Concrete worlds in the style of a test double: credentials, sessions and
    agents are numbered objects, a response is its own text. *)

Definition MockWorld : Type := World nat nat nat string.

Definition text_of (r : string) : string := r.

Definition never_fails {A} (_ : A) : option PyExc := None.

(** A release handler that returns [None] (falsy) whatever it is given. *)
Definition quiet_exit {A} (_ : A) (_ : option PyExc) : Outcome bool :=
  Returned false.

(** A release handler that swallows the exception in flight. *)
Definition suppressing_exit {A} (_ : A) (_ : option PyExc) : Outcome bool :=
  Returned true.

(** A release handler that itself fails. *)
Definition failing_exit {A} (e : PyExc) (_ : A) (_ : option PyExc)
    : Outcome bool :=
  Raised e.

Definition mock (cred : Outcome nat) (open : Outcome nat)
    (answer : Outcome string)
    (agent_close : ChatAgent nat -> option PyExc -> Outcome bool)
    (tool_close : MCPStreamableHTTPTool -> option PyExc -> Outcome bool)
    : MockWorld :=
  {| tool_init := never_fails;
     tool_aenter := fun _ => open;
     tool_aexit := tool_close;
     cli_credential := cred;
     client_init := never_fails;
     agent_init := never_fails;
     agent_aenter := fun _ => Returned 7;
     agent_aexit := agent_close;
     agent_run := fun _ _ _ => answer;
     print_fails := never_fails |}.

Definition ACA_ANSWER : string :=
  "Azure Container Apps is a serverless container service.".

Definition auth_error : PyExc :=
  Exception "AuthenticationError" "Please run 'az login' to set up an account".
Definition connection_error : PyExc :=
  Exception "ConnectionError" "learn.microsoft.com unreachable".
Definition backend_error : PyExc :=
  Exception "BackendError" "chat completion failed".
Definition close_error : PyExc :=
  Exception "RuntimeError" "error while closing the session".
Definition encode_error : PyExc :=
  Exception "UnicodeEncodeError" "'ascii' codec can't encode character".

(** Every collaborator succeeds. *)
Definition happy_world : MockWorld :=
  mock (Returned 1) (Returned 2) (Returned ACA_ANSWER) quiet_exit quiet_exit.

(** The credential provider has no active session. *)
Definition no_login_world : MockWorld :=
  mock (Raised auth_error) (Returned 2) (Returned ACA_ANSWER) quiet_exit quiet_exit.

(** The tool endpoint cannot be reached. *)
Definition offline_world : MockWorld :=
  mock (Returned 1) (Raised connection_error) (Returned ACA_ANSWER)
       quiet_exit quiet_exit.

(** The chat backend fails the query. *)
Definition backend_down_world : MockWorld :=
  mock (Returned 1) (Returned 2) (Raised backend_error) quiet_exit quiet_exit.

(** The query fails and then closing the tool connection fails as well. *)
Definition close_fails_world : MockWorld :=
  mock (Returned 1) (Returned 2) (Raised backend_error)
       quiet_exit (failing_exit close_error).

(** The query fails and the tool's [__aexit__] returns true. *)
Definition swallowing_world : MockWorld :=
  mock (Returned 1) (Returned 2) (Raised backend_error)
       quiet_exit suppressing_exit.


(** [w] with a standard output that behaves as [stdout_fails]. *)
Definition with_stdout (w : MockWorld) (stdout_fails : string -> option PyExc)
    : MockWorld :=
  {| tool_init := tool_init w;
     tool_aenter := tool_aenter w;
     tool_aexit := tool_aexit w;
     cli_credential := cli_credential w;
     client_init := client_init w;
     agent_init := agent_init w;
     agent_aenter := agent_aenter w;
     agent_aexit := agent_aexit w;
     agent_run := agent_run w;
     print_fails := stdout_fails |}.

(** The query answers and standard output cannot encode the answer. *)
Definition ascii_stdout_world : MockWorld :=
  with_stdout happy_world (fun _ => Some encode_error).

(** No login, a tool that closes quietly, and an agent whose release handler
    would raise if it were ever called. *)
Definition no_login_noisy_agent_world : MockWorld :=
  mock (Raised auth_error) (Returned 2) (Returned ACA_ANSWER)
       (failing_exit close_error) quiet_exit.


Definition script_env : Env :=
  {| dotenv := None; dunder_name := "__main__"; loop_running := false |}.
Definition import_env : Env :=
  {| dotenv := None; dunder_name := "client_remote_mcp"; loop_running := false |}.

(** * Properties *)

Section Properties.

Context {Cred Session Agent Response : Type}.
Variable str : Response -> string.

Implicit Types (w : World Cred Session Agent Response)
  (ws : list (World Cred Session Agent Response)) (e : PyExc)
  (s : Session) (c : Cred) (a : Agent) (r : Response)
  (tr : list (Event Cred Session Agent)).

(** ** The ways a run can go

    One equation per place where the run can stop.  Together they cover
    every world. *)

Ltac unfold_run :=
  unfold trace, result, leave_both, leave_tool, setup_events,
    remote_mcp_example, make_agent, query_and_print,
    async_with, bind, construct, call, print, ret;
  unfold agent_for.

Ltac open_facts :=
  repeat match goal with
         | H : tool_opened _ _ |- _ => destruct H
         | H : agent_built _ _ |- _ => destruct H as (? & ? & ?)
         | H : acquired _ _ _ _ |- _ => destruct H as (? & ? & ?)
         end;
  unfold agent_for in *.

Ltac use_facts :=
  repeat match goal with
         | H : _ = Returned _ |- _ => rewrite H in *; clear H
         | H : _ = Raised _ |- _ => rewrite H in *; clear H
         | H : _ = Some _ |- _ => rewrite H in *; clear H
         | H : _ = None |- _ => rewrite H in *; clear H
         end.

Ltac run_step := open_facts; unfold_run; use_facts; cbn.

Ltac exit_cases :=
  repeat match goal with
         | |- context [match ?x with _ => _ end] => destruct x as [[|]|]; cbn
         end; try reflexivity.

Lemma run_tool_init_fails w e :
  tool_init w mcp_tool = Some e ->
  remote_mcp_example str w = ([ToolInit mcp_tool], Raised e).
Proof. intros H. unfold_run. now rewrite H. Qed.

Lemma run_tool_open_fails w e :
  tool_init w mcp_tool = None ->
  tool_aenter w mcp_tool = Raised e ->
  remote_mcp_example str w = ([ToolInit mcp_tool; ToolEnter mcp_tool], Raised e).
Proof. intros H1 H2. unfold_run. now rewrite H1, H2. Qed.

Lemma run_credential_fails w s e :
  tool_opened w s ->
  cli_credential w = Raised e ->
  remote_mcp_example str w =
  leave_tool w [ToolInit mcp_tool; ToolEnter mcp_tool; GetCredential] (Some e).
Proof. intros Ht Hc. run_step. exit_cases. Qed.

Lemma run_client_init_fails w s c e :
  tool_opened w s ->
  cli_credential w = Returned c ->
  client_init w {| credential := c |} = Some e ->
  remote_mcp_example str w =
  leave_tool w [ToolInit mcp_tool; ToolEnter mcp_tool; GetCredential;
                ClientInit {| credential := c |}] (Some e).
Proof. intros Ht Hc Hk. run_step. exit_cases. Qed.

Lemma run_agent_init_fails w s c e :
  tool_opened w s ->
  cli_credential w = Returned c ->
  client_init w {| credential := c |} = None ->
  agent_init w (agent_for c) = Some e ->
  remote_mcp_example str w =
  leave_tool w [ToolInit mcp_tool; ToolEnter mcp_tool; GetCredential;
                ClientInit {| credential := c |}; AgentInit (agent_for c)]
             (Some e).
Proof. intros Ht Hc Hk Ha. run_step. exit_cases. Qed.

Lemma run_agent_enter_fails w s c e :
  tool_opened w s ->
  agent_built w c ->
  agent_aenter w (agent_for c) = Raised e ->
  remote_mcp_example str w = leave_tool w (setup_events c) (Some e).
Proof. intros Ht Hb Ha. run_step. exit_cases. Qed.

Lemma run_query_fails w s c a e :
  acquired w s c a ->
  agent_run w a QUERY s = Raised e ->
  remote_mcp_example str w =
  leave_both w c (setup_events c ++ [Run a QUERY s]) (Some e).
Proof. intros Hacq Hq. run_step. exit_cases. Qed.

Lemma run_print_fails w s c a r e :
  acquired w s c a ->
  agent_run w a QUERY s = Returned r ->
  print_fails w r = Some e ->
  remote_mcp_example str w =
  leave_both w c (setup_events c ++ [Run a QUERY s]) (Some e).
Proof. intros Hacq Hq Hp. run_step. exit_cases. Qed.

Lemma run_query_returns w s c a r :
  acquired w s c a ->
  agent_run w a QUERY s = Returned r ->
  print_fails w r = None ->
  remote_mcp_example str w =
  leave_both w c (setup_events c ++ [Run a QUERY s; Print (str r)]) None.
Proof. intros Hacq Hq Hp. run_step. exit_cases. Qed.

(** The nine equations are exhaustive: a property of all of their right
    hand sides is a property of every run. *)
Lemma run_cases w (P : M Cred Session Agent unit -> Prop) :
  (forall e, tool_init w mcp_tool = Some e ->
     P ([ToolInit mcp_tool], Raised e)) ->
  (forall e, tool_init w mcp_tool = None ->
     tool_aenter w mcp_tool = Raised e ->
     P ([ToolInit mcp_tool; ToolEnter mcp_tool], Raised e)) ->
  (forall s e, tool_opened w s -> cli_credential w = Raised e ->
     P (leave_tool w [ToolInit mcp_tool; ToolEnter mcp_tool; GetCredential]
                   (Some e))) ->
  (forall s c e, tool_opened w s -> cli_credential w = Returned c ->
     client_init w {| credential := c |} = Some e ->
     P (leave_tool w [ToolInit mcp_tool; ToolEnter mcp_tool; GetCredential;
                      ClientInit {| credential := c |}] (Some e))) ->
  (forall s c e, tool_opened w s -> cli_credential w = Returned c ->
     client_init w {| credential := c |} = None ->
     agent_init w (agent_for c) = Some e ->
     P (leave_tool w [ToolInit mcp_tool; ToolEnter mcp_tool; GetCredential;
                      ClientInit {| credential := c |};
                      AgentInit (agent_for c)] (Some e))) ->
  (forall s c e, tool_opened w s -> agent_built w c ->
     agent_aenter w (agent_for c) = Raised e ->
     P (leave_tool w (setup_events c) (Some e))) ->
  (forall s c a e, acquired w s c a ->
     agent_run w a QUERY s = Raised e ->
     P (leave_both w c (setup_events c ++ [Run a QUERY s]) (Some e))) ->
  (forall s c a r e, acquired w s c a ->
     agent_run w a QUERY s = Returned r ->
     print_fails w r = Some e ->
     P (leave_both w c (setup_events c ++ [Run a QUERY s]) (Some e))) ->
  (forall s c a r, acquired w s c a ->
     agent_run w a QUERY s = Returned r ->
     print_fails w r = None ->
     P (leave_both w c (setup_events c ++ [Run a QUERY s; Print (str r)])
                   None)) ->
  P (remote_mcp_example str w).
Proof.
  intros H1 H2 H3 H4 H5 H6 H7 H9 H8.
  destruct (tool_init w mcp_tool) as [e|] eqn:Hti.
  { rewrite (run_tool_init_fails w e Hti). now apply H1. }
  destruct (tool_aenter w mcp_tool) as [s|e] eqn:Hte.
  2:{ rewrite (run_tool_open_fails w e Hti Hte). now apply H2. }
  assert (Ht : tool_opened w s) by (split; assumption).
  destruct (cli_credential w) as [c|e] eqn:Hc.
  2:{ rewrite (run_credential_fails w s e Ht Hc). now apply (H3 s). }
  destruct (client_init w {| credential := c |}) as [e|] eqn:Hk.
  { rewrite (run_client_init_fails w s c e Ht Hc Hk). now apply (H4 s). }
  destruct (agent_init w (agent_for c)) as [e|] eqn:Ha.
  { rewrite (run_agent_init_fails w s c e Ht Hc Hk Ha). now apply (H5 s). }
  assert (Hb : agent_built w c) by (repeat split; assumption).
  destruct (agent_aenter w (agent_for c)) as [a|e] eqn:Hae.
  2:{ rewrite (run_agent_enter_fails w s c e Ht Hb Hae). now apply (H6 s). }
  assert (Hacq : acquired w s c a) by (repeat split; assumption).
  destruct (agent_run w a QUERY s) as [r|e] eqn:Hq.
  - destruct (print_fails w r) as [e|] eqn:Hp.
    + rewrite (run_print_fails w s c a r e Hacq Hq Hp).
      now apply (H9 s c a r e).
    + rewrite (run_query_returns w s c a r Hacq Hq Hp).
      now apply (H8 s c a r).
  - rewrite (run_query_fails w s c a e Hacq Hq). now apply (H7 s c a e).
Qed.

(** ** Counting and locating events *)

Lemma occurrences_app p tr tr' :
  occurrences p (tr ++ tr') = occurrences p tr + occurrences p tr'.
Proof. unfold occurrences. now rewrite filter_app, length_app. Qed.

Lemma stdout_app tr tr' : stdout (tr ++ tr') = stdout tr ++ stdout tr'.
Proof.
  induction tr as [|ev tr IH]; [reflexivity|].
  destruct ev; cbn; now rewrite ?IH.
Qed.

Ltac contradict_facts := open_facts; try congruence.

(** ** Credential failure *)

(** C1 (amended): when the credential provider raises, the agent is never
    constructed, the query is never issued and nothing is printed; the
    tool connection, which the script opens before it asks for the
    credential, is handed the error by its release handler, and these four
    calls are the whole run. *)
Theorem C1_credential_failure_stops_before_agent w e :
  cli_credential w = Raised e ->
  occurrences is_agent_init (trace str w) = 0 /\
  occurrences is_run (trace str w) = 0 /\
  stdout (trace str w) = [] /\
  (forall s, tool_opened w s ->
     trace str w = [ToolInit mcp_tool; ToolEnter mcp_tool; GetCredential;
                    ToolExit mcp_tool (Some e)]).
Proof.
  intros Hc. repeat split.
  - unfold trace. apply run_cases; intros; contradict_facts; reflexivity.
  - unfold trace. apply run_cases; intros; contradict_facts; reflexivity.
  - unfold trace. apply run_cases; intros; contradict_facts; reflexivity.
  - intros s Ht. unfold trace.
    now rewrite (run_credential_fails w s e Ht Hc).
Qed.

(** ** Release of the two resources *)

(** Both resources acquired: the run is the setup, the body of the
    [async with], and the two releases. *)
Lemma run_acquired w s c a :
  acquired w s c a ->
  exists body,
    remote_mcp_example str w =
      leave_both w c (setup_events c ++ Run a QUERY s :: body)
                 (body_error w s a) /\
    (body = [] \/ exists r, body = [Print (str r)]).
Proof.
  intros Hacq. unfold body_error.
  destruct (agent_run w a QUERY s) as [r|e] eqn:Hq.
  - destruct (print_fails w r) as [e|] eqn:Hp.
    + exists []. split; [|now left].
      now rewrite (run_print_fails w s c a r e Hacq Hq Hp).
    + exists [Print (str r)]. split; [|right; now exists r].
      now rewrite (run_query_returns w s c a r Hacq Hq Hp).
  - exists []. split; [|now left].
    now rewrite (run_query_fails w s c a e Hacq Hq).
Qed.

(** C2: once the tool connection and the agent are both acquired, each
    release handler is invoked exactly once and they are the last two calls
    of the run, whatever the query and the print do; the agent's handler is
    given the error the body ended with, if any. *)
Theorem C2_both_released_on_every_path w s c a :
  acquired w s c a ->
  exists pre y,
    trace str w =
      pre ++ [AgentExit (agent_for c) (body_error w s a);
              ToolExit mcp_tool y] /\
    occurrences is_agent_exit (trace str w) = 1 /\
    occurrences is_tool_exit (trace str w) = 1.
Proof.
  intros Hacq. unfold trace.
  destruct (run_acquired w s c a Hacq) as (body & -> & Hb).
  eexists (setup_events c ++ Run a QUERY s :: body), _.
  unfold leave_both, leave_tool. cbn [fst].
  split; [now rewrite <- !app_assoc|].
  destruct Hb as [-> | [r ->]]; split; reflexivity.
Qed.

(** C3: on the success path the resources are released in reverse order of
    acquisition: the tool connection is entered before the agent, and the
    agent is released strictly before the tool connection. *)
Theorem C3_release_in_reverse_order w s c a r :
  success_path w s c a r ->
  exists i j k l,
    position is_tool_enter (trace str w) = Some i /\
    position is_agent_enter (trace str w) = Some j /\
    position is_agent_exit (trace str w) = Some k /\
    position is_tool_exit (trace str w) = Some l /\
    i < j /\ j < k /\ k < l /\
    occurrences is_agent_exit (trace str w) = 1 /\
    occurrences is_tool_exit (trace str w) = 1.
Proof.
  intros (Hacq & _). unfold trace.
  destruct (run_acquired w s c a Hacq) as (body & -> & [-> | [r' ->]]).
  - exists 1, 5, 7, 8. cbn. repeat split; lia.
  - exists 1, 5, 8, 9. cbn. repeat split; lia.
Qed.

(** ** Tool connection failure *)

(** C4: when opening the tool connection raises, the run stops there with
    that error: no credential is requested, no agent is constructed, no
    query is issued. *)
Theorem C4_open_failure_stops_before_agent w e :
  tool_aenter w mcp_tool = Raised e ->
  occurrences is_get_credential (trace str w) = 0 /\
  occurrences is_agent_init (trace str w) = 0 /\
  occurrences is_run (trace str w) = 0 /\
  (tool_init w mcp_tool = None ->
     remote_mcp_example str w =
     ([ToolInit mcp_tool; ToolEnter mcp_tool], Raised e)).
Proof.
  intros Ho. repeat split.
  - unfold trace. apply run_cases; intros; contradict_facts; reflexivity.
  - unfold trace. apply run_cases; intros; contradict_facts; reflexivity.
  - unfold trace. apply run_cases; intros; contradict_facts; reflexivity.
  - intros Hi. now apply run_tool_open_fails.
Qed.

(** ** The query and its answer *)


(** ** Error propagation *)

(** No step of the script is attempted twice. *)
Lemma no_step_repeated w : NoDup (map step_kind (trace str w)).
Proof.
  unfold trace. apply run_cases; intros; cbn;
    repeat (constructor; [cbn; intuition discriminate|]); constructor.
Qed.

(** When the release handlers that are called answer falsy, leaving the
    scopes with [e] in flight hands [e] to the caller. *)
Lemma leave_tool_quiet w pre e :
  exits_quiet w (fst (leave_tool w pre (Some e))) ->
  snd (leave_tool w pre (Some e)) = Raised e.
Proof.
  unfold leave_tool, exits_quiet. cbn [fst snd]. intros H.
  apply Forall_app in H as [_ H]. inversion H as [|? ? Hx _]; subst.
  now rewrite Hx.
Qed.

Lemma leave_both_quiet w c pre e :
  exits_quiet w (fst (leave_both w c pre (Some e))) ->
  snd (leave_both w c pre (Some e)) = Raised e.
Proof.
  unfold leave_both. intros H.
  assert (Ha : agent_aexit w (agent_for c) (Some e) = Returned false).
  { unfold leave_tool, exits_quiet in H. cbn [fst] in H.
    apply Forall_app in H as [H _]. apply Forall_app in H as [_ H].
    now inversion H. }
  rewrite Ha in *. cbn [after_exit] in *. now apply leave_tool_quiet.
Qed.

(** C6 (amended): the script has no handler and retries nothing.  Every
    step is attempted at most once in every run, and when the release
    handlers the run calls (those of the resources already entered) return a
    falsy value without raising, a failure of any step (credential, tool
    open, a constructor, agent entry, the query, the print) reaches the
    caller unchanged. *)
Theorem C6_failure_reaches_caller w :
  NoDup (map step_kind (trace str w)) /\
  (forall e,
     Failure w e ->
     exits_quiet w (trace str w) ->
     result str w = Raised e).
Proof.
  split; [apply no_step_repeated|].
  intros e Hf. unfold result, trace.
  destruct Hf as [H | H1 H2 | s Ht Hc | s c Ht Hc Hk | s c Ht Hc Hk Ha
                 | s c Ht Hb Ha | s c a Hacq Hr | s c a r Hacq Hr Hp].
  - now rewrite (run_tool_init_fails w e H).
  - now rewrite (run_tool_open_fails w e H1 H2).
  - rewrite (run_credential_fails w s e Ht Hc). apply leave_tool_quiet.
  - rewrite (run_client_init_fails w s c e Ht Hc Hk). apply leave_tool_quiet.
  - rewrite (run_agent_init_fails w s c e Ht Hc Hk Ha). apply leave_tool_quiet.
  - rewrite (run_agent_enter_fails w s c e Ht Hb Ha). apply leave_tool_quiet.
  - rewrite (run_query_fails w s c a e Hacq Hr). apply leave_both_quiet.
  - rewrite (run_print_fails w s c a r e Hacq Hr Hp). apply leave_both_quiet.
Qed.

(** ** Construction arguments *)


(** ** Configuration loading *)

Lemma run_never_loads_dotenv w :
  occurrences is_load_dotenv (trace str w) = 0.
Proof. unfold trace. apply run_cases; intros; reflexivity. Qed.

Lemma invocations_never_load_dotenv ws :
  occurrences is_load_dotenv (invocations str ws) = 0.
Proof.
  induction ws as [|w ws IH]; [reflexivity|].
  pose proof (run_never_loads_dotenv w) as Hw. unfold trace in Hw.
  cbn [invocations]. now rewrite occurrences_app, IH, Hw.
Qed.

(** C8: [load_dotenv()] is the first call of the process and the only one
    of its kind: the module's top level makes it before
    [remote_mcp_example] can run, and no invocation of
    [remote_mcp_example], however many follow, makes it again. *)
Theorem C8_dotenv_loaded_once_at_import env w ws :
  position is_load_dotenv (process str env w ws) = Some 0 /\
  occurrences is_load_dotenv (process str env w ws) = 1 /\
  occurrences is_load_dotenv (invocations str (w :: ws)) = 0.
Proof.
  split; [|split; [|apply invocations_never_load_dotenv]].
  - unfold process, module_body, asyncio_run, load_dotenv, bind, construct,
      call, ret.
    destruct (dotenv env); [reflexivity|].
    destruct (dunder_name env =? "__main__")%string; [|reflexivity].
    destruct (loop_running env); [reflexivity|].
    destruct (remote_mcp_example str w) as [tr [u|e]]; reflexivity.
  - unfold process, module_body, asyncio_run, load_dotenv, bind, construct,
      call, ret.
    destruct (dotenv env); [reflexivity|].
    destruct (dunder_name env =? "__main__")%string.
    + destruct (loop_running env); [reflexivity|].
      pose proof (run_never_loads_dotenv w) as Hw. unfold trace in Hw.
      destruct (remote_mcp_example str w) as [tr [u|e]]; cbn in Hw.
      * change (occurrences is_load_dotenv
                  ((LoadDotenv :: tr) ++ invocations str ws) = 1).
        rewrite occurrences_app, invocations_never_load_dotenv.
        unfold occurrences in *. cbn. now rewrite Hw.
      * unfold occurrences in *. cbn. now rewrite Hw.
    + change (occurrences is_load_dotenv
                ([LoadDotenv] ++ invocations str ws) = 1).
      now rewrite occurrences_app, invocations_never_load_dotenv.
Qed.

(** ** The query *)

(** C9: whenever [agent.run] is called, its first argument is the literal
    question and its [tools] argument is what the tool connection's
    [__aenter__] returned, in every world; and once both resources are
    acquired it is called exactly once. *)
Theorem C9_query_is_the_fixed_literal w :
  Forall (fun ev =>
            match ev with
            | Run _ q tools =>
                q = "What is the Azure Container Apps service" /\
                tool_aenter w mcp_tool = Returned tools
            | _ => True
            end) (trace str w) /\
  (forall s c a, acquired w s c a ->
     filter is_run (trace str w) =
     [Run a "What is the Azure Container Apps service" s]).
Proof.
  split.
  - unfold trace. apply run_cases; intros; open_facts; unfold_run; cbn;
      repeat (constructor; try easy).
  - intros s c a Hacq. unfold trace.
    destruct (run_acquired w s c a Hacq) as (body & -> & [-> | [r ->]]);
      reflexivity.
Qed.

(** ** What the run consults *)







(** * Further properties of the script *)

(** ** After the tool connection is opened *)

(** Once the tool is open, every run ends in the tool's release handler, and
    that handler's answer is the run's outcome. *)
Lemma run_after_open w s :
  tool_opened w s ->
  exists pre exc, remote_mcp_example str w = leave_tool w pre exc.
Proof.
  intros Ht.
  apply (run_cases w (fun m => exists pre exc, m = leave_tool w pre exc));
    intros; try (unfold leave_both); try (eexists _, _; reflexivity);
    contradict_facts.
Qed.

(** X1: a tool connection whose release handler raises hides everything that
    happened inside its scope: whatever the credential provider, the agent or
    the query did, the caller receives the handler's error. *)
Theorem tool_release_error_is_what_the_caller_gets w s e' :
  tool_opened w s ->
  (forall exc, tool_aexit w mcp_tool exc = Raised e') ->
  result str w = Raised e'.
Proof.
  intros Ht Hx. destruct (run_after_open w s Ht) as (pre & exc & Heq).
  unfold result. rewrite Heq. unfold leave_tool. now rewrite Hx.
Qed.

(** X2: a tool connection whose release handler returns true swallows every
    failure inside its scope: the call returns [None] on every path. *)
Theorem tool_release_returning_true_hides_every_failure w s :
  tool_opened w s ->
  (forall exc, tool_aexit w mcp_tool exc = Returned true) ->
  result str w = Returned tt.
Proof.
  intros Ht Hx. destruct (run_after_open w s Ht) as (pre & exc & Heq).
  unfold result. rewrite Heq. unfold leave_tool. now rewrite Hx.
Qed.

(** X3: when the tool is open and the agent cannot be acquired (the
    credential, a constructor or the agent's entry fails), the agent's
    release handler is never called, no query is issued, nothing is printed,
    and the last call of the run hands the failure to the tool's release
    handler. *)
Theorem agent_setup_failure_releases_the_tool_only w s e :
  tool_opened w s ->
  Failure w e ->
  (forall c a, ~ acquired w s c a) ->
  (exists pre, trace str w = pre ++ [ToolExit mcp_tool (Some e)]) /\
  occurrences is_agent_exit (trace str w) = 0 /\
  occurrences is_run (trace str w) = 0 /\
  stdout (trace str w) = [].
Proof.
  intros Ht Hf Hno. unfold trace.
  assert (Hsame : forall s0 c a, acquired w s0 c a -> False).
  { intros s0 c a Hacq. assert (s0 = s).
    { destruct Hacq as ([_ H1] & _). destruct Ht as [_ H2]. congruence. }
    subst s0. exact (Hno c a Hacq). }
  destruct Hf as [H | H1 H2 | s0 Ht0 Hc | s0 c Ht0 Hc Hk | s0 c Ht0 Hc Hk Ha
                 | s0 c Ht0 Hb Ha | s0 c a Hacq Hr | s0 c a r Hacq Hr Hp].
  - destruct Ht; congruence.
  - destruct Ht; congruence.
  - rewrite (run_credential_fails w s0 e Ht0 Hc).
    split; [eexists; reflexivity | repeat split].
  - rewrite (run_client_init_fails w s0 c e Ht0 Hc Hk).
    split; [eexists; reflexivity | repeat split].
  - rewrite (run_agent_init_fails w s0 c e Ht0 Hc Hk Ha).
    split; [eexists; reflexivity | repeat split].
  - rewrite (run_agent_enter_fails w s0 c e Ht0 Hb Ha).
    split; [eexists; reflexivity | repeat split].
  - exfalso. exact (Hsame s0 c a Hacq).
  - exfalso. exact (Hsame s0 c a Hacq).
Qed.

(** ** Enter and exit are balanced *)

(** X4: a release handler is called exactly when the matching [__aenter__]
    has returned, and never twice: the tool's once the tool is open, the
    agent's once both resources are acquired. *)
Theorem release_is_called_iff_entry_returned w :
  (occurrences is_tool_exit (trace str w) = 1 <-> exists s, tool_opened w s) /\
  occurrences is_tool_exit (trace str w) <= 1 /\
  (occurrences is_agent_exit (trace str w) = 1 <->
   exists s c a, acquired w s c a) /\
  occurrences is_agent_exit (trace str w) <= 1.
Proof.
  unfold trace.
  apply run_cases; intros; cbn;
    (split; [|split; [|split]]);
    try (unfold occurrences; cbn; lia);
    (split;
     [ intros Hn; try discriminate Hn;
       try match goal with
           | H : acquired _ _ _ _ |- _ => pose proof H as (? & _)
           end;
       eauto
     | try reflexivity; intros; exfalso;
       repeat match goal with
              | H : exists _, _ |- _ => destruct H
              end;
       contradict_facts ]).
Qed.

(** ** Order of the calls *)

(** X5: in every run the calls follow one fixed order (tool construction,
    tool open, credential, chat client, agent construction, agent entry,
    query, print, agent release, tool release) and none is repeated; runs
    differ only in which of these calls they reach. *)
Theorem calls_follow_one_fixed_order w :
  StronglySorted lt (map step_kind (trace str w)).
Proof.
  unfold trace. apply run_cases; intros; cbn;
    repeat first [ lia | constructor ].
Qed.

(** X6: every call is made on an object this run acquired: [__aenter__] and
    [__aexit__] on the tool the script constructed and on the agent built
    from the issued credential, and the query on the value the agent's
    [__aenter__] returned. *)
Theorem calls_target_the_acquired_objects w :
  Forall (fun ev =>
            match ev with
            | ToolEnter t | ToolExit t _ => t = mcp_tool
            | AgentEnter cm | AgentExit cm _ =>
                exists c, agent_built w c /\ cm = agent_for c
            | Run a _ _ =>
                exists c, agent_built w c /\
                          agent_aenter w (agent_for c) = Returned a
            | _ => True
            end) (trace str w).
Proof.
  unfold trace. apply run_cases; intros; cbn;
    repeat match goal with
           | H : acquired _ _ _ _ |- _ => destruct H as (? & ? & ?)
           end;
    repeat (constructor; try easy; eauto).
Qed.

(** ** What is printed and when the call returns *)



(** ** Repeated calls *)

Lemma run_builds_one_tool w : occurrences is_tool_init (trace str w) = 1.
Proof. unfold trace. apply run_cases; intros; reflexivity. Qed.

Lemma run_queries_at_most_once w : occurrences is_run (trace str w) <= 1.
Proof.
  unfold trace. apply run_cases; intros; unfold occurrences; cbn; lia.
Qed.

Lemma run_prints_at_most_once w : length (stdout (trace str w)) <= 1.
Proof. unfold trace. apply run_cases; intros; cbn; lia. Qed.

(** X9: nothing is kept between calls: [n] invocations construct [n] tool
    objects, one each, and issue at most [n] queries and print at most [n]
    lines. *)
Theorem every_invocation_builds_its_own_tool ws :
  occurrences is_tool_init (invocations str ws) = length ws /\
  occurrences is_run (invocations str ws) <= length ws /\
  length (stdout (invocations str ws)) <= length ws.
Proof.
  induction ws as [|w ws (IH1 & IH2 & IH3)]; [repeat split; cbn; lia|].
  pose proof (run_builds_one_tool w) as H1.
  pose proof (run_queries_at_most_once w) as H2.
  pose proof (run_prints_at_most_once w) as H3.
  unfold trace in *. cbn [invocations length].
  rewrite !occurrences_app, stdout_app, length_app. lia.
Qed.

End Properties.

(** * Concrete runs

    The mock worlds, run. *)

Example happy_run :
  remote_mcp_example text_of happy_world =
  ([ToolInit mcp_tool; ToolEnter mcp_tool; GetCredential;
    ClientInit {| credential := 1 |};
    AgentInit {| chat_client := {| credential := 1 |};
                 agent_name := "MSLearnAgent";
                 instructions := "You help with Microsoft documentation questions." |};
    AgentEnter {| chat_client := {| credential := 1 |};
                  agent_name := "MSLearnAgent";
                  instructions := "You help with Microsoft documentation questions." |};
    Run 7 "What is the Azure Container Apps service" 2;
    Print "Azure Container Apps is a serverless container service.";
    AgentExit {| chat_client := {| credential := 1 |};
                 agent_name := "MSLearnAgent";
                 instructions := "You help with Microsoft documentation questions." |} None;
    ToolExit mcp_tool None],
   Returned tt).
Proof. reflexivity. Qed.

Example no_login_run :
  remote_mcp_example text_of no_login_world =
  ([ToolInit mcp_tool; ToolEnter mcp_tool; GetCredential;
    ToolExit mcp_tool (Some auth_error)],
   Raised auth_error).
Proof. reflexivity. Qed.

Example backend_down_run :
  remote_mcp_example text_of backend_down_world =
  (setup_events 1 ++
     [Run 7 QUERY 2;
      AgentExit (agent_for 1) (Some backend_error);
      ToolExit mcp_tool (Some backend_error)],
   Raised backend_error).
Proof. reflexivity. Qed.

(** A tool whose [__aexit__] returns true ends the run normally although the
    query failed. *)
Example swallowing_run :
  remote_mcp_example text_of swallowing_world =
  (setup_events 1 ++
     [Run 7 QUERY 2;
      AgentExit (agent_for 1) (Some backend_error);
      ToolExit mcp_tool (Some backend_error)],
   Returned tt).
Proof. reflexivity. Qed.

(** Standard output cannot take the answer: nothing is printed and both
    release handlers are given the error. *)
Example ascii_stdout_run :
  remote_mcp_example text_of ascii_stdout_world =
  (setup_events 1 ++
     [Run 7 QUERY 2;
      AgentExit (agent_for 1) (Some encode_error);
      ToolExit mcp_tool (Some encode_error)],
   Raised encode_error).
Proof. reflexivity. Qed.

Lemma happy_world_acquired : acquired happy_world 2 1 7.
Proof. repeat split. Defined.

Lemma happy_world_success : success_path happy_world 2 1 7 ACA_ANSWER.
Proof.
  split; [exact happy_world_acquired|].
  split; [reflexivity|]. split; exists false; reflexivity.
Defined.

Lemma backend_down_world_acquired : acquired backend_down_world 2 1 7.
Proof. repeat split. Defined.

Lemma close_fails_world_opened : tool_opened close_fails_world 2.
Proof. split; reflexivity. Defined.

Lemma swallowing_world_opened : tool_opened swallowing_world 2.
Proof. split; reflexivity. Defined.

Lemma no_login_world_opened : tool_opened no_login_world 2.
Proof. split; reflexivity. Defined.

Lemma no_login_world_fails : Failure no_login_world auth_error.
Proof.
  apply (credential_fails _ _ 2); [exact no_login_world_opened | reflexivity].
Defined.

Lemma no_login_world_never_acquires c a : ~ acquired no_login_world 2 c a.
Proof. intros (_ & (Hc & _) & _). discriminate Hc. Defined.

Lemma noisy_agent_world_fails : Failure no_login_noisy_agent_world auth_error.
Proof. apply (credential_fails _ _ 2); [split|]; reflexivity. Defined.

Lemma noisy_agent_world_exits_quiet :
  exits_quiet no_login_noisy_agent_world
              (trace text_of no_login_noisy_agent_world).
Proof. unfold exits_quiet. cbn. repeat constructor. Defined.



(** C1, as stated, fails: with a credential provider that raises, the tool
    connection has been opened (second call of the run) before the credential
    is asked for (third call). *)
Lemma C1_tool_is_opened_before_the_credential_fails :
  cli_credential no_login_world = Raised auth_error /\
  occurrences is_tool_enter (trace text_of no_login_world) = 1 /\
  position is_tool_enter (trace text_of no_login_world) = Some 1 /\
  position is_get_credential (trace text_of no_login_world) = Some 2.
Proof. repeat split. Qed.

Lemma C1_witness :
  cli_credential no_login_world = Raised auth_error /\
  (occurrences is_agent_init (trace text_of no_login_world) = 0 /\
   occurrences is_run (trace text_of no_login_world) = 0 /\
   stdout (trace text_of no_login_world) = [] /\
   (forall s, tool_opened no_login_world s ->
      trace text_of no_login_world =
      [ToolInit mcp_tool; ToolEnter mcp_tool; GetCredential;
       ToolExit mcp_tool (Some auth_error)])).
Proof.
  split; [reflexivity|].
  apply (C1_credential_failure_stops_before_agent text_of no_login_world
           auth_error).
  reflexivity.
Defined.

Lemma C2_witness :
  acquired backend_down_world 2 1 7 /\
  exists pre y,
    trace text_of backend_down_world =
      pre ++ [AgentExit (agent_for 1) (Some backend_error);
              ToolExit mcp_tool y] /\
    occurrences is_agent_exit (trace text_of backend_down_world) = 1 /\
    occurrences is_tool_exit (trace text_of backend_down_world) = 1.
Proof.
  split; [exact backend_down_world_acquired|].
  exact (C2_both_released_on_every_path text_of backend_down_world 2 1 7
           backend_down_world_acquired).
Defined.

Lemma C3_witness :
  success_path happy_world 2 1 7 ACA_ANSWER /\
  exists i j k l,
    position is_tool_enter (trace text_of happy_world) = Some i /\
    position is_agent_enter (trace text_of happy_world) = Some j /\
    position is_agent_exit (trace text_of happy_world) = Some k /\
    position is_tool_exit (trace text_of happy_world) = Some l /\
    i < j /\ j < k /\ k < l /\
    occurrences is_agent_exit (trace text_of happy_world) = 1 /\
    occurrences is_tool_exit (trace text_of happy_world) = 1.
Proof.
  split; [exact happy_world_success|].
  exact (C3_release_in_reverse_order text_of happy_world 2 1 7 ACA_ANSWER
           happy_world_success).
Defined.

Lemma C4_witness :
  tool_aenter offline_world mcp_tool = Raised connection_error /\
  (occurrences is_get_credential (trace text_of offline_world) = 0 /\
   occurrences is_agent_init (trace text_of offline_world) = 0 /\
   occurrences is_run (trace text_of offline_world) = 0 /\
   (tool_init offline_world mcp_tool = None ->
      remote_mcp_example text_of offline_world =
      ([ToolInit mcp_tool; ToolEnter mcp_tool], Raised connection_error))).
Proof.
  split; [reflexivity|].
  apply (C4_open_failure_stops_before_agent text_of offline_world
           connection_error).
  reflexivity.
Defined.



(** C6, as stated, fails: the query raises [backend_error], the tool
    connection then fails to close, and the caller receives the error of the
    close, not the error of the query. *)
Lemma C6_close_error_replaces_query_error :
  Failure close_fails_world backend_error /\
  result text_of close_fails_world = Raised close_error /\
  exc_type backend_error = "BackendError" /\
  exc_type close_error = "RuntimeError".
Proof.
  split; [|repeat split].
  apply (query_fails _ _ 2 1 7); repeat split.
Qed.

(** The credential fails, the tool closes quietly, and the agent, whose
    release handler would raise, was never entered: the error arrives
    unchanged. *)
Lemma C6_witness :
  Failure no_login_noisy_agent_world auth_error /\
  exits_quiet no_login_noisy_agent_world
              (trace text_of no_login_noisy_agent_world) /\
  agent_aexit no_login_noisy_agent_world (agent_for 1) (Some auth_error) =
    Raised close_error /\
  result text_of no_login_noisy_agent_world = Raised auth_error.
Proof.
  split; [exact noisy_agent_world_fails|].
  split; [exact noisy_agent_world_exits_quiet|].
  split; [reflexivity|].
  exact (proj2 (C6_failure_reaches_caller text_of no_login_noisy_agent_world)
           auth_error noisy_agent_world_fails noisy_agent_world_exits_quiet).
Defined.


Lemma C9_witness :
  acquired happy_world 2 1 7 /\
  filter is_run (trace text_of happy_world) =
  [Run 7 "What is the Azure Container Apps service" 2].
Proof.
  split; [exact happy_world_acquired|].
  exact (proj2 (C9_query_is_the_fixed_literal text_of happy_world) 2 1 7
           happy_world_acquired).
Defined.

(** ** The further properties at the mock worlds *)

Lemma tool_release_error_witness :
  tool_opened close_fails_world 2 /\
  (forall exc, tool_aexit close_fails_world mcp_tool exc = Raised close_error) /\
  result text_of close_fails_world = Raised close_error.
Proof.
  split; [exact close_fails_world_opened|].
  split; [intros exc; reflexivity|].
  apply (tool_release_error_is_what_the_caller_gets text_of close_fails_world
           2 close_error close_fails_world_opened).
  intros exc. reflexivity.
Defined.

Lemma tool_release_returning_true_witness :
  tool_opened swallowing_world 2 /\
  (forall exc, tool_aexit swallowing_world mcp_tool exc = Returned true) /\
  agent_run swallowing_world 7 QUERY 2 = Raised backend_error /\
  result text_of swallowing_world = Returned tt.
Proof.
  split; [exact swallowing_world_opened|].
  split; [intros exc; reflexivity|].
  split; [reflexivity|].
  apply (tool_release_returning_true_hides_every_failure text_of
           swallowing_world 2 swallowing_world_opened).
  intros exc. reflexivity.
Defined.

Lemma agent_setup_failure_witness :
  tool_opened no_login_world 2 /\
  Failure no_login_world auth_error /\
  ((exists pre,
      trace text_of no_login_world = pre ++ [ToolExit mcp_tool (Some auth_error)]) /\
   occurrences is_agent_exit (trace text_of no_login_world) = 0 /\
   occurrences is_run (trace text_of no_login_world) = 0 /\
   stdout (trace text_of no_login_world) = []).
Proof.
  split; [exact no_login_world_opened|].
  split; [exact no_login_world_fails|].
  exact (agent_setup_failure_releases_the_tool_only text_of no_login_world 2
           auth_error no_login_world_opened no_login_world_fails
           no_login_world_never_acquires).
Defined.


